(** * Feature Style Resolver: the style and tooltip callbacks of the
    choropleth map

    The repository registers, under [window.dashExtensions.default], three
    callbacks that a Leaflet GeoJSON layer invokes for every feature:

    - [function0] (the spec's defaultStyle),
    - [function1] (the spec's highlightStyle),
    - [function2] (the spec's bindTooltip).

    Two files define them: [assets/dashExtensions_default.js] reads the fill
    colour from the feature (module [Flat]) and the second file looks the
    colour up from the feature's cluster (module [ClusterColor]).

    The development is a shallow embedding: JavaScript values are a Rocq
    inductive type, the operations of the language the callbacks use
    (property reads, [||], [+] with a string, method calls) are Rocq
    functions that follow ECMAScript, and each callback is a term of a small
    monad of computations that may throw and may call into the host. *)

From Stdlib Require Import ZArith Ascii String.
From Stdlib Require Import DecimalFacts DecimalPos DecimalString.
From stdpp Require Import base option gmap strings list.

Open Scope string_scope.

(** ** Numbers

    The callbacks never do arithmetic: a Number is written as a literal,
    tested for truthiness, or printed (as a property key or inside the
    tooltip text).  A finite non-zero Number is therefore kept as the
    decimal [mantissa * 10 ^ exponent] that denotes it. *)

Inductive number :=
| NaN
| Infinity (negative : bool)
| Zero (negative : bool)
| Finite (negative : bool) (mantissa : positive) (exponent : Z).

Definition number_of_Z (z : Z) : number :=
  match z with
  | Z0 => Zero false
  | Zpos p => Finite false p 0
  | Zneg p => Finite true p 0
  end.

(** The literals of the two source files. *)
Definition lit_1 : number := number_of_Z 1.
Definition lit_3 : number := number_of_Z 3.
Definition lit_0_8 : number := Finite false 8 (-1).
Definition lit_0_95 : number := Finite false 95 (-2).
Definition lit_0_7 : number := Finite false 7 (-1).
Definition lit_0_9 : number := Finite false 9 (-1).

Definition digits (p : positive) : string :=
  NilEmpty.string_of_uint (Pos.to_uint p).

Definition digits_of_Z (z : Z) : string :=
  NilZero.string_of_uint (N.to_uint (Z.to_N z)).

Fixpoint zeros (n : nat) : string :=
  match n with
  | O => ""
  | S n' => String "0"%char (zeros n')
  end.

(** Drops the zeros at the end of a digit string. *)
Fixpoint strip_zeros (s : string) : string :=
  match s with
  | "" => ""
  | String c r =>
      match strip_zeros r with
      | "" => if Ascii.eqb c "0"%char then "" else String c ""
      | r' => String c r'
      end
  end.

Definition sign (negative : bool) : string :=
  if negative then "-" else "".

(** Number::toString(x) in radix 10.  With [s] the digits of the shortest
    decimal of [x], [k] their count and [n] the position of the decimal
    point ([x] is [0.s * 10 ^ n]), ECMAScript prints an integer below
    [10 ^ 21] in full, a fraction down to [10 ^ -7] in positional notation,
    and everything else with an exponent. *)
Definition number_to_string (x : number) : string :=
  match x with
  | NaN => "NaN"
  | Zero _ => "0"
  | Infinity negative => sign negative +:+ "Infinity"
  | Finite negative m e =>
      let all := digits m in
      let s := strip_zeros all in
      let k := Z.of_nat (String.length s) in
      let n := (Z.of_nat (String.length all) + e)%Z in
      sign negative +:+
      (if bool_decide (k ≤ n ≤ 21)%Z then
         s +:+ zeros (Z.to_nat (n - k))
       else if bool_decide (0 < n ≤ 21)%Z then
         substring 0 (Z.to_nat n) s +:+ "." +:+
         substring (Z.to_nat n) (Z.to_nat (k - n)) s
       else if bool_decide (-6 < n ≤ 0)%Z then
         "0." +:+ zeros (Z.to_nat (- n)) +:+ s
       else
         let exponent :=
           "e" +:+ (if bool_decide (n - 1 < 0)%Z then "-" else "+") +:+
           digits_of_Z (Z.abs (n - 1)) in
         if bool_decide (k = 1)%Z then s +:+ exponent
         else substring 0 1 s +:+ "." +:+
              substring 1 (Z.to_nat (k - 1)) s +:+ exponent)
  end.

(** ** Values

    A GeoJSON feature is plain data: primitives, arrays and objects.  The
    only functions a callback can meet are the members every object inherits
    from Object.prototype and the methods of the Leaflet layer; a function is
    known by its name.  Symbols and BigInts cannot occur in such data and are
    left out.  Strings are kept as their UTF-8 bytes. *)

Inductive primitive :=
| PUndefined
| PNull
| PBool (b : bool)
| PNum (n : number)
| PStr (s : string).

#[warnings="-register-all"]
Inductive value :=
| VPrim (p : primitive)
| VArr (elems : list value)
| VObj (props : gmap string value)
| VFunction (name : string).

Abbreviation VUndefined := (VPrim PUndefined).
Abbreviation VNull := (VPrim PNull).
Abbreviation VBool b := (VPrim (PBool b)).
Abbreviation VNum n := (VPrim (PNum n)).
Abbreviation VStr s := (VPrim (PStr s)).

Definition is_object (v : value) : bool :=
  match v with
  | VPrim _ => false
  | _ => true
  end.

(** An object literal [{k1: v1, k2: v2, ...}]: the fields are defined in
    source order, a later one replacing an earlier one of the same name. *)
Definition object_literal (fields : list (string * value)) : value :=
  VObj (foldl (λ m kv, <[kv.1 := kv.2]> m) ∅ fields).

(** ** Computations

    A callback either returns, throws, or calls a function of the host and
    goes on with what the host returns.  The callbacks have no handler, so
    an exception thrown inside a host function leaves the callback with it
    and needs no node of its own. *)

Inductive exn := TypeError.

Inductive prog (A : Type) :=
| Ret (a : A)
| Throw (e : exn)
| Call (callee : string) (this : value) (args : list value)
       (k : value → prog A).

Arguments Ret {A} a.
Arguments Throw {A} e.
Arguments Call {A} callee this args k.

Fixpoint bind {A B : Type} (c : prog A) (f : A → prog B) : prog B :=
  match c with
  | Ret a => f a
  | Throw e => Throw e
  | Call callee this args k => Call callee this args (λ r, bind (k r) f)
  end.

#[global] Instance prog_ret : MRet prog := @Ret.
#[global] Instance prog_bind : MBind prog := λ A B f c, bind c f.

(** ** The intrinsics reachable from a plain object *)

Definition object_valueOf : string := "%Object.prototype.valueOf%".
Definition object_toString : string := "%Object.prototype.toString%".

(** The members of Object.prototype (ECMAScript with Annex B), apart from
    the [__proto__] accessor. *)
Definition object_prototype_methods : gmap string value :=
  list_to_map
    [ ("constructor", VFunction "%Object%");
      ("hasOwnProperty", VFunction "%Object.prototype.hasOwnProperty%");
      ("isPrototypeOf", VFunction "%Object.prototype.isPrototypeOf%");
      ("propertyIsEnumerable",
        VFunction "%Object.prototype.propertyIsEnumerable%");
      ("toLocaleString", VFunction "%Object.prototype.toLocaleString%");
      ("toString", VFunction object_toString);
      ("valueOf", VFunction object_valueOf);
      ("__defineGetter__", VFunction "%Object.prototype.__defineGetter__%");
      ("__defineSetter__", VFunction "%Object.prototype.__defineSetter__%");
      ("__lookupGetter__", VFunction "%Object.prototype.__lookupGetter__%");
      ("__lookupSetter__", VFunction "%Object.prototype.__lookupSetter__%") ].

(** Object.prototype itself, as a value: read on it, [__proto__] is null. *)
Definition object_prototype : value :=
  VObj (<["__proto__" := VNull]> object_prototype_methods).

(** What a plain object inherits under [key]: the [__proto__] accessor
    answers with the object's prototype. *)
Definition inherited (key : string) : value :=
  if String.eqb key "__proto__" then object_prototype
  else default VUndefined (object_prototype_methods !! key).

(** [[Get]] on a plain object with own properties [props]. *)
Definition member (props : gmap string value) (key : string) : value :=
  match props !! key with
  | Some v => v
  | None => inherited key
  end.

(** The read [base.key].  Reading from undefined or null throws a
    TypeError.  A plain object answers from its own properties and then from
    Object.prototype.  Any other base (a boolean, number, string, array or
    function) is read through its wrapper; the callbacks read only the names
    [properties], [fillColor], [cluster], [kabkot], [cluster_label] and
    [bindTooltip] from a value they were given, none of which a standard
    wrapper or its prototype defines, so the model keeps Object.prototype,
    the end of every chain, as the only prototype. *)
Definition get (base : value) (key : string) : prog value :=
  match base with
  | VUndefined | VNull => Throw TypeError
  | VObj props => Ret (member props key)
  | _ => Ret (inherited key)
  end.

(** ** Conversions *)

(** ToBoolean. *)
Definition to_boolean (v : value) : bool :=
  match v with
  | VUndefined | VNull => false
  | VBool b => b
  | VNum NaN | VNum (Zero _) => false
  | VNum _ => true
  | VStr s => negb (String.eqb s "")
  | _ => true
  end.

(** ToString on a primitive. *)
Definition primitive_to_string (p : primitive) : string :=
  match p with
  | PUndefined => "undefined"
  | PNull => "null"
  | PBool b => if b then "true" else "false"
  | PNum n => number_to_string n
  | PStr s => s
  end.

Inductive hint := HintDefault | HintString.

(** One step of OrdinaryToPrimitive: if [method] is callable it is called
    on [this], and a primitive result is the answer; otherwise [next] is
    tried.  Object.prototype.valueOf returns [this], which is an object;
    Object.prototype.toString prints a plain object as [[object Object]];
    any other function is the host's. *)
Definition try_method (method this : value) (next : prog primitive)
  : prog primitive :=
  match method with
  | VFunction name =>
      if String.eqb name object_valueOf then next
      else if String.eqb name object_toString then
        Ret (PStr "[object Object]")
      else Call name this []
             (λ r, match r with VPrim p => Ret p | _ => next end)
  | _ => next
  end.

(** OrdinaryToPrimitive on a plain object: toString then valueOf for the
    string hint, valueOf then toString otherwise. *)
Definition ordinary_to_primitive (h : hint) (this : value)
    (props : gmap string value) : prog primitive :=
  match h with
  | HintString =>
      try_method (member props "toString") this
        (try_method (member props "valueOf") this (Throw TypeError))
  | HintDefault =>
      try_method (member props "valueOf") this
        (try_method (member props "toString") this (Throw TypeError))
  end.

(** ToPrimitive.  An array has no toString or valueOf of its own: valueOf
    is Object.prototype's and returns the array, toString is
    Array.prototype's and joins the elements with a comma, printing
    undefined and null as the empty string.  The text of a function is the
    engine's to choose and is asked from it. *)
Fixpoint to_primitive (h : hint) (v : value) {struct v} : prog primitive :=
  match v with
  | VPrim p => Ret p
  | VArr elems =>
      s ← (fix join (l : list value) : prog string :=
             match l with
             | [] => Ret ""
             | x :: r =>
                 sx ← match x with
                      | VUndefined | VNull => Ret ""
                      | _ => p ← to_primitive HintString x;
                             Ret (primitive_to_string p)
                      end;
                 match r with
                 | [] => Ret sx
                 | _ => sr ← join r; Ret (sx +:+ "," +:+ sr)
                 end
             end) elems;
      Ret (PStr s)
  | VObj props => ordinary_to_primitive h v props
  | VFunction _ =>
      Call "%Function.prototype.toString%" v []
        (λ r, match r with VPrim p => Ret p | _ => Throw TypeError end)
  end.

(** ToPropertyKey, for the computed read [base[key]]. *)
Definition to_property_key (v : value) : prog string :=
  p ← to_primitive HintString v; Ret (primitive_to_string p).

(** The read [base[key]]. *)
Definition get_computed (base key : value) : prog value :=
  match base with
  | VUndefined | VNull => Throw TypeError
  | _ => name ← to_property_key key; get base name
  end.

(** [a || b] with [b] a literal. *)
Definition or_else (a b : value) : value :=
  if to_boolean a then a else b.

(** [a + s] and [s + b] with [s] a string: the other operand is made
    primitive (default hint) and printed, and the two strings are joined.
    The numeric case of [+] needs two operands that are not strings, which
    never happens in the callbacks. *)
Definition add_string_r (a : value) (s : string) : prog string :=
  p ← to_primitive HintDefault a; Ret (primitive_to_string p +:+ s).

Definition add_string_l (s : string) (b : value) : prog string :=
  p ← to_primitive HintDefault b; Ret (s +:+ primitive_to_string p).

(** The call [callee.call(this, ...args)]: a TypeError if [callee] is not a
    function. *)
Definition call (callee this : value) (args : list value) : prog value :=
  match callee with
  | VFunction name => Call name this args Ret
  | _ => Throw TypeError
  end.

(** ** The callbacks of [assets/dashExtensions_default.js] *)

Module Flat.

(** [function0: function(feature, context)]: the default style, filled
    with [feature.properties.fillColor || '#9ca3af']. *)
Definition function0 (feature context : value) : prog value :=
  properties ← get feature "properties";
  fillColor ← get properties "fillColor";
  mret (object_literal
    [ ("color", VStr "#0f172a");
      ("weight", VNum lit_1);
      ("fillColor", or_else fillColor (VStr "#9ca3af"));
      ("fillOpacity", VNum lit_0_8) ]).

(** [function1: function(feature, context)]: the style on hover. *)
Definition function1 (feature context : value) : prog value :=
  mret (object_literal
    [ ("weight", VNum lit_3);
      ("color", VStr "#e5e7eb");
      ("fillOpacity", VNum lit_0_95) ]).

(** [function2: function(feature, layer, context)]: reads [kabkot] and
    [cluster_label], then evaluates
    [layer.bindTooltip(kabkot + ' – ' + label, {sticky: true})]: the
    method is read first, the arguments come next, and the call checks
    that the method is a function. *)
Definition function2 (feature layer context : value) : prog unit :=
  properties ← get feature "properties";
  kabkot ← get properties "kabkot";
  properties' ← get feature "properties";
  label ← get properties' "cluster_label";
  bindTooltip ← get layer "bindTooltip";
  left ← add_string_r kabkot " – ";
  text ← add_string_l left label;
  _ ← call bindTooltip layer
        [VStr text; object_literal [("sticky", VBool true)]];
  mret ().

End Flat.

(** ** The callbacks of the cluster-colour file *)

Module ClusterColor.

(** [function0: function(feature, context)]: the default style, filled
    with [colors[cl] || '#808080'] where [cl] is
    [feature.properties.cluster]. *)
Definition function0 (feature context : value) : prog value :=
  properties ← get feature "properties";
  cl ← get properties "cluster";
  let colors := object_literal
    [ ("0", VStr "#1f77b4");
      ("1", VStr "#ff7f0e") ] in
  color ← get_computed colors cl;
  mret (object_literal
    [ ("color", VStr "#ffffff");
      ("weight", VNum lit_1);
      ("fillColor", or_else color (VStr "#808080"));
      ("fillOpacity", VNum lit_0_7) ]).

(** [function1: function(feature, context)]: the style on hover. *)
Definition function1 (feature context : value) : prog value :=
  mret (object_literal
    [ ("weight", VNum lit_3);
      ("color", VStr "#000000");
      ("fillOpacity", VNum lit_0_9) ]).

(** [function2: function(feature, layer, context)]: as in the other
    file. *)
Definition function2 (feature layer context : value) : prog unit :=
  properties ← get feature "properties";
  kabkot ← get properties "kabkot";
  properties' ← get feature "properties";
  label ← get properties' "cluster_label";
  bindTooltip ← get layer "bindTooltip";
  left ← add_string_r kabkot " – ";
  text ← add_string_l left label;
  _ ← call bindTooltip layer
        [VStr text; object_literal [("sticky", VBool true)]];
  mret ().

End ClusterColor.

(** ** Inputs and results *)

(** [feature] is an object whose [properties] field is the object with own
    properties [props]. *)
Definition has_properties (feature : value) (props : gmap string value)
  : Prop :=
  ∃ fields, feature = VObj fields ∧ fields !! "properties" = Some (VObj props).

(** [layer] is an object whose [bindTooltip] member is the function
    [method]. *)
Definition exposes_bindTooltip (layer : value) (method : string) : Prop :=
  ∃ fields, layer = VObj fields ∧
            fields !! "bindTooltip" = Some (VFunction method).

(** The field [name] of a returned style, if [style] is an object that has
    it. *)
Definition field (style : value) (name : string) : option value :=
  match style with
  | VObj props => props !! name
  | _ => None
  end.

(** The computation that calls [method] on [layer] once, with a text and the
    option [{sticky: true}], and returns. *)
Definition binds_tooltip (method : string) (layer : value) (text : string)
  : prog unit :=
  Call method layer [VStr text; object_literal [("sticky", VBool true)]]
    (λ _, Ret ()).

Definition feature_of (props : list (string * value)) : value :=
  object_literal [("properties", object_literal props)].

Definition layer_of (method : string) : value :=
  object_literal [("bindTooltip", VFunction method)].

(** The read of a property that may be absent: the value, or undefined. *)
Definition read (props : gmap string value) (key : string) : value :=
  default VUndefined (props !! key).

(** In a [+] with a string, [v] contributes the text [s]: ToPrimitive
    returns, without a call into the host, a primitive that prints as
    [s]. *)
Definition prints_as (v : value) (s : string) : Prop :=
  ∃ p, to_primitive HintDefault v = Ret p ∧ primitive_to_string p = s.

(** The host calls a computation makes, in order, when [host] answers
    them. *)
Record host_call := HostCall {
  callee : string;
  receiver : value;
  arguments : list value
}.

Fixpoint trace {A : Type} (host : string → value → list value → value)
    (c : prog A) : list host_call :=
  match c with
  | Ret _ | Throw _ => []
  | Call f this args k =>
      HostCall f this args :: trace host (k (host f this args))
  end.

Definition is_string (v : value) : bool :=
  match v with VStr _ => true | _ => false end.

Definition is_number (v : value) : bool :=
  match v with VNum _ => true | _ => false end.

(** A property is absent or has a value of the given kind. *)
Definition absent_or (kind : value → bool) (o : option value) : bool :=
  match o with
  | Some v => kind v
  | None => true
  end.

(** The style has the field, with a value of the given kind. *)
Definition field_is (kind : value → bool) (style : value) (name : string)
  : Prop :=
  ∃ v, field style name = Some v ∧ kind v = true.

(** The output contract of the spec: all four fields. *)
Definition full_style (style : value) : Prop :=
  field_is is_string style "color" ∧ field_is is_number style "weight" ∧
  field_is is_string style "fillColor" ∧
  field_is is_number style "fillOpacity".

(** What the hover callbacks return: three fields, and no fillColor. *)
Definition hover_style (style : value) : Prop :=
  field_is is_string style "color" ∧ field_is is_number style "weight" ∧
  field_is is_number style "fillOpacity" ∧
  field style "fillColor" = None.

(** ** The colour table, as the code reads it and as the spec words it *)

(** The colour found under a property key: the table's own entries, then
    what the table inherits from Object.prototype.  This is what the read
    [colors[key]] returns (lemma [colors_member]). *)
Definition color_under (key : string) : value :=
  if decide (key = "1") then VStr "#ff7f0e"
  else if decide (key = "0") then VStr "#1f77b4"
  else inherited key.

(** The same table in the words of the spec: the lookup
    [{0: '#1f77b4', 1: '#ff7f0e'}] over cluster integers. *)
Definition palette : gmap Z string :=
  {[ 0%Z := "#1f77b4"; 1%Z := "#ff7f0e" ]}.

(** ** Characters of a printed Number *)

Definition is_digit (c : ascii) : bool :=
  (48 <=? nat_of_ascii c)%nat && (nat_of_ascii c <=? 57)%nat.

(** A printed Number starts with a digit, a minus sign, or the first letter
    of [Infinity] or [NaN]. *)
Definition key_head (c : ascii) : bool :=
  is_digit c || Ascii.eqb c "-" || Ascii.eqb c "I" || Ascii.eqb c "N".

(** ** Kinds of values *)

Definition is_nullish (v : value) : bool :=
  match v with VUndefined | VNull => true | _ => false end.

Definition is_function (v : value) : bool :=
  match v with VFunction _ => true | _ => false end.

(** The read [feature.properties] throws or yields undefined or null: the
    next read, of a property of it, cannot succeed. *)
Definition lacks_properties (feature : value) : bool :=
  match get feature "properties" with
  | Ret properties => is_nullish properties
  | _ => true
  end.

(** The read [layer.bindTooltip] throws or yields something that is not a
    function. *)
Definition lacks_bindTooltip (layer : value) : bool :=
  match get layer "bindTooltip" with
  | Ret method => negb (is_function method)
  | _ => true
  end.

(** ** Object.assign onto a fresh object

    Both files are one statement,
    [window.dashExtensions = Object.assign({}, window.dashExtensions,
    {default: {...}})].  [Object.assign] copies the own enumerable
    properties of each source in turn, a later source replacing what an
    earlier one wrote; undefined and null are skipped, a boolean, a number
    and a function have nothing to copy, an array has its elements and a
    string its code units under their indices. *)

Section ObjectAssign.

(** The UTF-16 code units of a string, each as a string of its own.  The
    development keeps strings as bytes and leaves this view of them to the
    engine. *)
Variable code_units : string → list string.

Definition index_key (i : nat) : string :=
  NilZero.string_of_uint (Nat.to_uint i).

Definition indexed (elems : list value) : gmap string value :=
  list_to_map (imap (λ i v, (index_key i, v)) elems).

Definition own_enumerable (source : value) : gmap string value :=
  match source with
  | VObj props => props
  | VArr elems => indexed elems
  | VStr s => indexed ((λ unit, VStr unit) <$> code_units s)
  | _ => ∅
  end.

(** One source is copied with [[Set]] on the target.  On a plain object that
    defines the property, except for the name [__proto__], which reaches the
    accessor of Object.prototype instead and leaves no own property.  (When
    the value written there is an object or null the accessor also replaces
    the prototype of the target, which the objects of this development do
    not record: the own properties below are what the target then has.) *)
Definition assign_one (target : gmap string value) (source : value)
  : gmap string value :=
  delete "__proto__" (own_enumerable source) ∪ target.

(** [Object.assign({}, source1, ..., sourceN)]. *)
Definition object_assign (sources : list value) : value :=
  VObj (foldl assign_one ∅ sources).

End ObjectAssign.

(** ** The statement of [assets/dashExtensions_default.js]

    [window] is given by its own properties.  A function expression makes a
    function object; the object is named after the definition that embeds
    its body. *)

Module FlatScript.

Definition default_namespace : value :=
  object_literal
    [ ("function0", VFunction "Flat.function0");
      ("function1", VFunction "Flat.function1");
      ("function2", VFunction "Flat.function2") ].

Definition script (code_units : string → list string)
    (window : gmap string value) : prog (gmap string value) :=
  dashExtensions ← get (VObj window) "dashExtensions";
  let assigned :=
    object_assign code_units
      [dashExtensions; object_literal [("default", default_namespace)]] in
  mret (<["dashExtensions" := assigned]> window).

End FlatScript.

(** ** The statement of the cluster-colour file *)

Module ClusterColorScript.

Definition default_namespace : value :=
  object_literal
    [ ("function0", VFunction "ClusterColor.function0");
      ("function1", VFunction "ClusterColor.function1");
      ("function2", VFunction "ClusterColor.function2") ].

Definition script (code_units : string → list string)
    (window : gmap string value) : prog (gmap string value) :=
  dashExtensions ← get (VObj window) "dashExtensions";
  let assigned :=
    object_assign code_units
      [dashExtensions; object_literal [("default", default_namespace)]] in
  mret (<["dashExtensions" := assigned]> window).

End ClusterColorScript.


(** ** Number::toString on sample values *)

Example print_5 : number_to_string (number_of_Z 5) = "5".
Proof. reflexivity. Qed.
Example print_120 : number_to_string (number_of_Z 120) = "120".
Proof. reflexivity. Qed.
Example print_neg_7 : number_to_string (number_of_Z (-7)) = "-7".
Proof. reflexivity. Qed.
Example print_0_8 : number_to_string lit_0_8 = "0.8".
Proof. reflexivity. Qed.
Example print_0_95 : number_to_string lit_0_95 = "0.95".
Proof. reflexivity. Qed.
Example print_12_5 : number_to_string (Finite false 125 (-1)) = "12.5".
Proof. reflexivity. Qed.
Example print_1e21 : number_to_string (Finite false 1 21) = "1e+21".
Proof. reflexivity. Qed.
Example print_15e20 : number_to_string (Finite false 15 20) = "1.5e+21".
Proof. reflexivity. Qed.
Example print_1e_7 : number_to_string (Finite true 1 (-7)) = "-1e-7".
Proof. reflexivity. Qed.
Example print_123e_8 : number_to_string (Finite false 123 (-8)) = "0.00000123".
Proof. reflexivity. Qed.
Example print_1_0 : number_to_string (Finite false 10 (-1)) = "1".
Proof. reflexivity. Qed.

(** ** Conversions on sample values *)

Example print_array :
  to_primitive HintDefault
    (VArr [VNum lit_1; VNull; VArr [VStr "a"; VStr "b"]; object_literal []]) =
  Ret (PStr "1,,a,b,[object Object]").
Proof. reflexivity. Qed.

Example print_plain_object :
  add_string_r (object_literal [("a", VNum lit_1)]) "!" =
  Ret "[object Object]!".
Proof. reflexivity. Qed.

(** An own [toString] that is not a function hides the inherited one, and
    valueOf returns the object: nothing is left to try. *)
Example print_object_with_toString_data :
  add_string_r (object_literal [("toString", VStr "x")]) "!" = Throw TypeError.
Proof. reflexivity. Qed.

Example key_of_array :
  to_property_key (VArr [VNum lit_1]) = Ret "1".
Proof. reflexivity. Qed.

Example truthiness :
  to_boolean (VStr "") = false ∧ to_boolean (VStr "0") = true ∧
  to_boolean (VNum (Zero true)) = false ∧ to_boolean (VNum NaN) = false ∧
  to_boolean VNull = false ∧ to_boolean (object_literal []) = true.
Proof. by repeat split. Qed.

Example inherited_members :
  get (object_literal []) "toString" = Ret (VFunction object_toString) ∧
  get (object_literal []) "__proto__" = Ret object_prototype ∧
  get (object_literal []) "fillColor" = Ret VUndefined ∧
  get (object_literal [("toString", VNull)]) "toString" = Ret VNull.
Proof. by repeat split. Qed.

(** ** Printing integers *)

Lemma app_empty (s : string) : "" +:+ s = s.
Proof. reflexivity. Qed.

Lemma app_String (c : ascii) (r s : string) :
  String c r +:+ s = String c (r +:+ s).
Proof. reflexivity. Qed.

Ltac push_app := rewrite ?app_String, ?app_empty.

Lemma strip_zeros_pad (s : string) :
  strip_zeros s +:+ zeros (String.length s - String.length (strip_zeros s)) = s.
Proof.
  induction s as [|c r IH]; [reflexivity|].
  cbn [strip_zeros]. destruct (strip_zeros r) as [|a r'] eqn:E.
  - cbn in IH. rewrite Nat.sub_0_r, app_empty in IH.
    destruct (Ascii.eqb c "0") eqn:Ec.
    + apply Ascii.eqb_eq in Ec. subst c. cbn. by rewrite app_empty, IH.
    + cbn. by rewrite app_String, app_empty, Nat.sub_0_r, IH.
  - cbn in *. rewrite !app_String in *. by rewrite IH.
Qed.

Lemma strip_zeros_head (c : ascii) (r : string) :
  c ≠ "0"%char → ∃ r', strip_zeros (String c r) = String c r'.
Proof.
  intros Hc. cbn [strip_zeros]. destruct (strip_zeros r); [|by eexists].
  destruct (Ascii.eqb c "0") eqn:Ec; [|by eexists].
  by apply Ascii.eqb_eq in Ec.
Qed.

Lemma strip_zeros_length (s : string) :
  (String.length (strip_zeros s) ≤ String.length s)%nat.
Proof.
  induction s as [|c r IH]; [done|].
  cbn [strip_zeros]. destruct (strip_zeros r); [|cbn in *; lia].
  destruct (Ascii.eqb c "0"); cbn; lia.
Qed.

(** The decimal of a positive number starts with a digit that is not 0. *)
Lemma digits_head (p : positive) :
  ∃ c rest, digits p = String c rest ∧ is_digit c = true ∧ c ≠ "0"%char.
Proof.
  unfold digits.
  pose proof (DecimalPos.Unsigned.to_uint_nonzero p) as Hnz.
  pose proof (DecimalPos.Unsigned.to_uint_nonnil p) as Hnn.
  assert (Hnorm : Decimal.unorm (Pos.to_uint p) = Pos.to_uint p).
  { rewrite <- (DecimalPos.Unsigned.to_of (Pos.to_uint p)).
    by rewrite DecimalPos.Unsigned.of_to. }
  destruct (Pos.to_uint p) as [|u|u|u|u|u|u|u|u|u|u]; [done| |
    by (do 2 eexists; split; [reflexivity|split; [reflexivity|done]])..].
  exfalso. rewrite DecimalFacts.unorm_D0 in Hnorm. unfold Decimal.unorm in Hnorm.
  destruct (Decimal.nzhead u) eqn:Eu; try discriminate.
  - injection Hnorm as <-. by apply Hnz.
  - by apply DecimalFacts.nzhead_nonzero in Eu.
Qed.

Lemma digits_inj (p q : positive) : digits p = digits q → p = q.
Proof.
  unfold digits. intros H. apply DecimalPos.Unsigned.to_uint_inj.
  apply (f_equal NilEmpty.uint_of_string) in H.
  rewrite !NilEmpty.usu in H. congruence.
Qed.

(** The shape of a printed non-zero integer: after the sign comes a digit
    from 1 to 9, and if nothing follows it the integer has one digit. *)
Lemma print_integer_shape (negative : bool) (p : positive) :
  ∃ c rest,
    number_to_string (Finite negative p 0) = sign negative +:+ String c rest ∧
    is_digit c = true ∧ c ≠ "0"%char ∧
    (rest = "" → digits p = String c "").
Proof.
  destruct (digits_head p) as (c & r & Hd & Hc & Hc0).
  destruct (strip_zeros_head c r Hc0) as (r' & Hs).
  pose proof (strip_zeros_pad (digits p)) as Hpad.
  pose proof (strip_zeros_length (digits p)) as Hlen.
  unfold number_to_string. rewrite Z.add_0_r.
  set (k := Z.of_nat (String.length (strip_zeros (digits p)))).
  set (n := Z.of_nat (String.length (digits p))).
  assert (Hkn : (k ≤ n)%Z) by (subst k n; lia).
  assert (Hk1 : (1 ≤ k)%Z) by (subst k; rewrite Hd, Hs; cbn; lia).
  case_bool_decide as H1.
  - replace (Z.to_nat (n - k))
      with (String.length (digits p) - String.length (strip_zeros (digits p)))
      by (subst k n; lia).
    rewrite Hpad, Hd. exists c, r.
    split; [done|]. split; [done|]. split; [done|]. by intros ->.
  - rewrite bool_decide_eq_false_2 by lia.
    rewrite bool_decide_eq_false_2 by lia.
    rewrite Hd, Hs. case_bool_decide as Hk.
    + eexists c, _. split; [by push_app|]. split; [done|]. split; [done|].
      intros Hrest. exfalso.
      destruct r'; rewrite ?app_String, ?app_empty in Hrest; discriminate Hrest.
    + replace (substring 0 1 (String c r')) with (String c "")
        by (by destruct r').
      eexists c, _. split; [by push_app|]. split; [done|]. split; [done|].
      intros Hrest. rewrite ?app_String, ?app_empty in Hrest. discriminate Hrest.
Qed.

Lemma print_number_head (x : number) :
  ∃ c rest, number_to_string x = String c rest ∧ key_head c = true.
Proof.
  destruct x as [|negative|negative|negative m e];
    [by eexists _, _|by destruct negative; eexists _, _|by eexists _, _|].
  destruct (digits_head m) as (c & r & Hd & Hc & Hc0).
  destruct (strip_zeros_head c r Hc0) as (r' & Hs).
  assert (Hhead : ∀ body, ∃ c' rest,
            sign negative +:+ String c body = String c' rest ∧
            key_head c' = true).
  { intros body. destruct negative; eexists _, _; (split; [reflexivity|]);
      [done|]. unfold key_head. by rewrite Hc. }
  unfold number_to_string. rewrite Hd, Hs.
  set (k := Z.of_nat _). set (n := (Z.of_nat _ + e)%Z).
  repeat case_bool_decide; rewrite ?app_String; try apply Hhead.
  - destruct (Z.to_nat n) as [|j] eqn:Hn; [lia|].
    change (substring 0 (S j) (String c r')) with (String c (substring 0 j r')).
    rewrite app_String. apply Hhead.
  - destruct negative; by eexists _, _.
Qed.

(** ** Reading properties *)

(** No member of Object.prototype has a name that starts like a printed
    Number. *)
Lemma inherited_number_like (c : ascii) (rest : string) :
  key_head c = true → inherited (String c rest) = VUndefined.
Proof.
  intros Hc. unfold inherited.
  destruct (String.eqb (String c rest) "__proto__") eqn:E.
  { apply String.eqb_eq in E. injection E as -> _. discriminate Hc. }
  unfold object_prototype_methods.
  rewrite (not_elem_of_list_to_map_1 (M := gmap string)); [done|].
  cbn [fmap list_fmap fst]. intros Hin.
  repeat (apply elem_of_cons in Hin as [Hin|Hin];
          [injection Hin as -> _; discriminate Hc|]).
  by apply elem_of_nil in Hin.
Qed.

Lemma inherited_number (x : number) :
  inherited (number_to_string x) = VUndefined.
Proof.
  destruct (print_number_head x) as (c & rest & -> & Hc).
  by apply inherited_number_like.
Qed.

Lemma get_properties (feature : value) (props : gmap string value) :
  has_properties feature props → get feature "properties" = Ret (VObj props).
Proof. intros (fields & -> & H). cbn. unfold member. by rewrite H. Qed.

Lemma get_bindTooltip (layer : value) (method : string) :
  exposes_bindTooltip layer method →
  get layer "bindTooltip" = Ret (VFunction method).
Proof. intros (fields & -> & H). cbn. unfold member. by rewrite H. Qed.

Lemma get_present (props : gmap string value) (key : string) (v : value) :
  props !! key = Some v → get (VObj props) key = Ret v.
Proof. intros H. cbn. unfold member. by rewrite H. Qed.

Lemma get_absent (props : gmap string value) (key : string) :
  props !! key = None → get (VObj props) key = Ret (inherited key).
Proof. intros H. cbn. unfold member. by rewrite H. Qed.

Lemma ret_bind {A B : Type} (a : A) (f : A → prog B) :
  (x ← Ret a; f x) = f a.
Proof. reflexivity. Qed.

Lemma get_static (props : gmap string value) (key : string) :
  inherited key = VUndefined → get (VObj props) key = Ret (read props key).
Proof.
  intros Hk. unfold read. destruct (props !! key) eqn:E.
  - by apply get_present.
  - rewrite <- Hk. by apply get_absent.
Qed.

(** One step of a callback whose reads are known. *)
Ltac step :=
  first [ rewrite ret_bind
        | rewrite get_static by reflexivity ].

(** The lookup table of the cluster-colour file under a key. *)
Lemma colors_member (key : string) :
  get (object_literal [("0", VStr "#1f77b4"); ("1", VStr "#ff7f0e")]) key =
  Ret (color_under key).
Proof.
  cbn. unfold member, color_under. f_equal.
  rewrite lookup_insert. destruct (decide ("1" = key)) as [<-|H1]; [done|].
  rewrite decide_False by done.
  rewrite lookup_insert. destruct (decide ("0" = key)) as [<-|H0]; [done|].
  rewrite decide_False by done. by rewrite lookup_empty.
Qed.

(** ** The default style of [assets/dashExtensions_default.js] *)

Lemma flat_function0_returns (feature context : value)
    (props : gmap string value) :
  has_properties feature props →
  Flat.function0 feature context =
  Ret (object_literal
    [ ("color", VStr "#0f172a");
      ("weight", VNum lit_1);
      ("fillColor", or_else (read props "fillColor") (VStr "#9ca3af"));
      ("fillOpacity", VNum lit_0_8) ]).
Proof.
  intros Hf. unfold Flat.function0.
  rewrite (get_properties _ _ Hf), ret_bind.
  by rewrite get_static, ret_bind.
Qed.

Lemma style_fields (color weight fill opacity : value) :
  let style := object_literal
    [ ("color", color); ("weight", weight);
      ("fillColor", fill); ("fillOpacity", opacity) ] in
  field style "color" = Some color ∧ field style "weight" = Some weight ∧
  field style "fillColor" = Some fill ∧
  field style "fillOpacity" = Some opacity.
Proof. by repeat split. Qed.

(** C2, as amended: for every feature whose properties include a truthy
    fillColor value (any non-empty string is one), the default style of the
    flat variant returns a style whose fillColor field is that value. *)
Theorem flat_defaultStyle_keeps_truthy_fillColor
    (feature context : value) (props : gmap string value) (v : value) :
  has_properties feature props →
  props !! "fillColor" = Some v →
  to_boolean v = true →
  ∃ style, Flat.function0 feature context = Ret style ∧
           field style "fillColor" = Some v.
Proof.
  intros Hf Hv Ht. rewrite (flat_function0_returns _ _ _ Hf).
  eexists. split; [reflexivity|].
  unfold read. rewrite Hv. change (default VUndefined (Some v)) with v.
  unfold or_else. rewrite Ht.
  apply style_fields.
Qed.

Lemma flat_defaultStyle_keeps_truthy_fillColor_witness :
  has_properties (feature_of [("fillColor", VStr "#ff0000")])
    {[ "fillColor" := VStr "#ff0000" ]} ∧
  ({[ "fillColor" := VStr "#ff0000" ]} : gmap string value) !! "fillColor" =
    Some (VStr "#ff0000") ∧
  to_boolean (VStr "#ff0000") = true ∧
  ∃ style,
    Flat.function0 (feature_of [("fillColor", VStr "#ff0000")]) VUndefined =
      Ret style ∧
    field style "fillColor" = Some (VStr "#ff0000").
Proof.
  assert (H : has_properties (feature_of [("fillColor", VStr "#ff0000")])
                {[ "fillColor" := VStr "#ff0000" ]}).
  { eexists. split; reflexivity. }
  split; [exact H|]. split; [reflexivity|]. split; [reflexivity|].
  apply (flat_defaultStyle_keeps_truthy_fillColor
           _ VUndefined _ (VStr "#ff0000") H); reflexivity.
Defined.

(** C2 as it is written fails: the empty string is a fillColor value that
    the properties include, and the returned fillColor is the fallback. *)
Lemma flat_defaultStyle_empty_fillColor :
  ¬ (∀ (feature context : value) (props : gmap string value) (v : value),
       has_properties feature props →
       props !! "fillColor" = Some v →
       ∃ style, Flat.function0 feature context = Ret style ∧
                field style "fillColor" = Some v).
Proof.
  intros claim.
  destruct (claim (feature_of [("fillColor", VStr "")]) VUndefined
              {[ "fillColor" := VStr "" ]} (VStr ""))
    as (style & Hrun & Hfill).
  - eexists. split; reflexivity.
  - reflexivity.
  - injection Hrun as <-. discriminate Hfill.
Qed.

(** C3: for every feature whose properties do not include fillColor, the
    default style of the flat variant returns a style whose fillColor field
    is the fallback colour '#9ca3af'. *)
Theorem flat_defaultStyle_fallback
    (feature context : value) (props : gmap string value) :
  has_properties feature props →
  props !! "fillColor" = None →
  ∃ style, Flat.function0 feature context = Ret style ∧
           field style "fillColor" = Some (VStr "#9ca3af").
Proof.
  intros Hf Hv. rewrite (flat_function0_returns _ _ _ Hf).
  eexists. split; [reflexivity|].
  unfold read, or_else. rewrite Hv. apply style_fields.
Qed.

Lemma flat_defaultStyle_fallback_witness :
  has_properties (feature_of [("kabkot", VStr "Kota A")])
    {[ "kabkot" := VStr "Kota A" ]} ∧
  ({[ "kabkot" := VStr "Kota A" ]} : gmap string value) !! "fillColor" = None ∧
  ∃ style,
    Flat.function0 (feature_of [("kabkot", VStr "Kota A")]) VUndefined =
      Ret style ∧
    field style "fillColor" = Some (VStr "#9ca3af").
Proof.
  assert (H : has_properties (feature_of [("kabkot", VStr "Kota A")])
                {[ "kabkot" := VStr "Kota A" ]}).
  { eexists. split; reflexivity. }
  split; [exact H|]. split; [reflexivity|].
  apply (flat_defaultStyle_fallback _ VUndefined _ H). reflexivity.
Defined.

(** C9: in the flat variant a feature whose fillColor is present but falsy
    (the empty string, for one) is styled as if fillColor were absent: the
    returned fillColor is the fallback '#9ca3af'. *)
Theorem flat_defaultStyle_falsy_fillColor
    (feature context : value) (props : gmap string value) (v : value) :
  has_properties feature props →
  props !! "fillColor" = Some v →
  to_boolean v = false →
  ∃ style, Flat.function0 feature context = Ret style ∧
           field style "fillColor" = Some (VStr "#9ca3af").
Proof.
  intros Hf Hv Ht. rewrite (flat_function0_returns _ _ _ Hf).
  eexists. split; [reflexivity|].
  unfold read. rewrite Hv. change (default VUndefined (Some v)) with v.
  unfold or_else. rewrite Ht.
  apply style_fields.
Qed.

Lemma flat_defaultStyle_falsy_fillColor_witness :
  has_properties (feature_of [("fillColor", VStr "")])
    {[ "fillColor" := VStr "" ]} ∧
  ({[ "fillColor" := VStr "" ]} : gmap string value) !! "fillColor" =
    Some (VStr "") ∧
  to_boolean (VStr "") = false ∧
  ∃ style,
    Flat.function0 (feature_of [("fillColor", VStr "")]) VUndefined =
      Ret style ∧
    field style "fillColor" = Some (VStr "#9ca3af").
Proof.
  assert (H : has_properties (feature_of [("fillColor", VStr "")])
                {[ "fillColor" := VStr "" ]}).
  { eexists. split; reflexivity. }
  split; [exact H|]. split; [reflexivity|]. split; [reflexivity|].
  apply (flat_defaultStyle_falsy_fillColor _ VUndefined _ (VStr "") H);
    reflexivity.
Defined.

(** ** The style on hover *)

(** C5: for every pair of features and every pair of context values, the
    hover style of each variant returns the same constant style object: the
    result depends on no part of the input. *)
Theorem highlightStyle_constant (feature1 context1 feature2 context2 : value) :
  (Flat.function1 feature1 context1 = Flat.function1 feature2 context2 ∧
   ∃ style, Flat.function1 feature1 context1 = Ret style) ∧
  (ClusterColor.function1 feature1 context1 =
     ClusterColor.function1 feature2 context2 ∧
   ∃ style, ClusterColor.function1 feature1 context1 = Ret style).
Proof. repeat split; by eexists. Qed.

(** ** The tooltip *)

Lemma function2_variants (feature layer context : value) :
  Flat.function2 feature layer context =
  ClusterColor.function2 feature layer context.
Proof. reflexivity. Qed.

(** C10: the tooltip callbacks of the two variants are extensionally equal:
    for every feature, layer and context they are the same computation, so
    they call [layer.bindTooltip] with the same text and the same options,
    and throw on the same inputs. *)
Theorem bindTooltip_variants_agree (feature layer context : value) :
  Flat.function2 feature layer context =
  ClusterColor.function2 feature layer context.
Proof. apply function2_variants. Qed.

Lemma prints_primitive (p : primitive) :
  prints_as (VPrim p) (primitive_to_string p).
Proof. by exists p. Qed.

Lemma function2_returns (feature layer context : value)
    (props : gmap string value) (method : string) (k l : string) :
  has_properties feature props →
  exposes_bindTooltip layer method →
  prints_as (read props "kabkot") k →
  prints_as (read props "cluster_label") l →
  Flat.function2 feature layer context =
  binds_tooltip method layer ((k +:+ " – ") +:+ l).
Proof.
  intros Hf Hl (pk & Hk & <-) (pl & Hlabel & <-). unfold Flat.function2.
  rewrite (get_properties _ _ Hf), (get_bindTooltip _ _ Hl).
  repeat step. unfold add_string_r, add_string_l.
  rewrite Hk. repeat step. by rewrite Hlabel.
Qed.

Lemma binds_tooltip_trace (method : string) (layer : value) (text : string)
    (host : string → value → list value → value) :
  trace host (binds_tooltip method layer text) =
  [HostCall method layer [VStr text; object_literal [("sticky", VBool true)]]].
Proof. reflexivity. Qed.

(** C1: for every feature whose properties contain kabkot and
    cluster_label (values that [+] can print: every primitive, strings in
    particular), the tooltip callback of both variants calls
    [layer.bindTooltip] exactly once, with the text
    [kabkot + ' – ' + cluster_label] (en-dash separator) and the option
    [{sticky: true}]; for kabkot 'Kota A' and cluster_label 'Cluster 1' the
    text is "Kota A – Cluster 1". *)
Theorem bindTooltip_text (feature layer context : value)
    (props : gmap string value) (method : string)
    (kabkot label : value) (k l : string) :
  has_properties feature props →
  exposes_bindTooltip layer method →
  props !! "kabkot" = Some kabkot →
  props !! "cluster_label" = Some label →
  prints_as kabkot k →
  prints_as label l →
  let text := (k +:+ " – ") +:+ l in
  let the_call :=
    HostCall method layer
      [VStr text; object_literal [("sticky", VBool true)]] in
  (Flat.function2 feature layer context = binds_tooltip method layer text ∧
   ∀ host, trace host (Flat.function2 feature layer context) = [the_call]) ∧
  (ClusterColor.function2 feature layer context =
     binds_tooltip method layer text ∧
   ∀ host, trace host (ClusterColor.function2 feature layer context) =
           [the_call]) ∧
  (kabkot = VStr "Kota A" → label = VStr "Cluster 1" →
   text = "Kota A – Cluster 1").
Proof.
  intros Hf Hl Hk Hlabel Hpk Hpl text the_call.
  assert (Flat.function2 feature layer context =
          binds_tooltip method layer text) as Hrun.
  { apply (function2_returns _ _ _ props); [done|done|..];
      unfold read; by rewrite ?Hk, ?Hlabel. }
  split; [|split].
  - split; [done|]. intros host. rewrite Hrun. apply binds_tooltip_trace.
  - rewrite <- function2_variants. split; [done|].
    intros host. rewrite Hrun. apply binds_tooltip_trace.
  - intros -> ->. destruct Hpk as (pk & [= <-] & Hpk), Hpl as (pl & [= <-] & Hpl).
    subst text. by rewrite <- Hpk, <- Hpl.
Qed.

Lemma bindTooltip_text_witness :
  let feature :=
    feature_of [("kabkot", VStr "Kota A"); ("cluster_label", VStr "Cluster 1")] in
  let props : gmap string value :=
    {[ "kabkot" := VStr "Kota A"; "cluster_label" := VStr "Cluster 1" ]} in
  let layer := layer_of "bindTooltip" in
  let the_call :=
    HostCall "bindTooltip" layer
      [VStr "Kota A – Cluster 1"; object_literal [("sticky", VBool true)]] in
  has_properties feature props ∧
  exposes_bindTooltip layer "bindTooltip" ∧
  props !! "kabkot" = Some (VStr "Kota A") ∧
  props !! "cluster_label" = Some (VStr "Cluster 1") ∧
  prints_as (VStr "Kota A") "Kota A" ∧
  prints_as (VStr "Cluster 1") "Cluster 1" ∧
  (∀ host, trace host (Flat.function2 feature layer VUndefined) =
           [the_call]) ∧
  (∀ host, trace host (ClusterColor.function2 feature layer VUndefined) =
           [the_call]).
Proof.
  intros feature props layer the_call.
  assert (Hf : has_properties feature props) by (eexists; split; reflexivity).
  assert (Hl : exposes_bindTooltip layer "bindTooltip")
    by (eexists; split; reflexivity).
  split; [exact Hf|]. split; [exact Hl|].
  assert (Hk : prints_as (VStr "Kota A") "Kota A")
    by (eexists; split; reflexivity).
  assert (Hc : prints_as (VStr "Cluster 1") "Cluster 1")
    by (eexists; split; reflexivity).
  split; [reflexivity|]. split; [reflexivity|].
  split; [exact Hk|]. split; [exact Hc|].
  destruct (bindTooltip_text feature layer VUndefined props "bindTooltip"
              (VStr "Kota A") (VStr "Cluster 1") "Kota A" "Cluster 1"
              Hf Hl eq_refl eq_refl Hk Hc)
    as ((_ & Hflat) & (_ & Hcluster) & _).
  split; [exact Hflat|exact Hcluster].
Defined.

(** C7: for every feature whose properties lack kabkot or cluster_label
    (the other one, if present, being a primitive value), the tooltip
    callback of both variants does not fail: it binds a tooltip whose text
    has the literal 'undefined' in the place of the missing property. *)
Theorem bindTooltip_missing_property (feature layer context : value)
    (props : gmap string value) (method : string) :
  has_properties feature props →
  exposes_bindTooltip layer method →
  props !! "kabkot" = None ∨ props !! "cluster_label" = None →
  is_object (read props "kabkot") = false →
  is_object (read props "cluster_label") = false →
  ∃ text,
    Flat.function2 feature layer context = binds_tooltip method layer text ∧
    ClusterColor.function2 feature layer context =
      binds_tooltip method layer text ∧
    (props !! "kabkot" = None →
     ∃ rest, text = ("undefined" +:+ " – ") +:+ rest) ∧
    (props !! "cluster_label" = None →
     ∃ first, text = (first +:+ " – ") +:+ "undefined").
Proof.
  intros Hf Hl _ Hk Hlabel.
  destruct (read props "kabkot") as [k| | |] eqn:Ek; try discriminate Hk.
  destruct (read props "cluster_label") as [l| | |] eqn:El;
    try discriminate Hlabel.
  pose proof (function2_returns _ _ context props _
                (primitive_to_string k) (primitive_to_string l) Hf Hl) as Hrun.
  rewrite Ek, El in Hrun.
  specialize (Hrun (prints_primitive k) (prints_primitive l)).
  eexists. split; [exact Hrun|]. split; [by rewrite <- function2_variants|].
  unfold read in Ek, El. split.
  - intros Hnone. rewrite Hnone in Ek. injection Ek as <-. by eexists.
  - intros Hnone. rewrite Hnone in El. injection El as <-. by eexists.
Qed.

Lemma bindTooltip_missing_property_witness :
  let feature := feature_of [("cluster_label", VStr "Cluster 1")] in
  let props : gmap string value := {[ "cluster_label" := VStr "Cluster 1" ]} in
  let layer := layer_of "bindTooltip" in
  has_properties feature props ∧
  exposes_bindTooltip layer "bindTooltip" ∧
  (props !! "kabkot" = None ∨ props !! "cluster_label" = None) ∧
  is_object (read props "kabkot") = false ∧
  is_object (read props "cluster_label") = false ∧
  ∃ text,
    Flat.function2 feature layer VUndefined =
      binds_tooltip "bindTooltip" layer text ∧
    ClusterColor.function2 feature layer VUndefined =
      binds_tooltip "bindTooltip" layer text ∧
    (props !! "kabkot" = None →
     ∃ rest, text = ("undefined" +:+ " – ") +:+ rest) ∧
    (props !! "cluster_label" = None →
     ∃ first, text = (first +:+ " – ") +:+ "undefined").
Proof.
  intros feature props layer.
  assert (Hf : has_properties feature props) by (eexists; split; reflexivity).
  assert (Hl : exposes_bindTooltip layer "bindTooltip")
    by (eexists; split; reflexivity).
  split; [exact Hf|]. split; [exact Hl|].
  split; [left; reflexivity|]. split; [reflexivity|]. split; [reflexivity|].
  apply (bindTooltip_missing_property feature layer VUndefined props
           "bindTooltip" Hf Hl); [left|..]; reflexivity.
Defined.

Example tooltip_without_kabkot :
  Flat.function2 (feature_of [("cluster_label", VStr "Cluster 1")])
    (layer_of "bindTooltip") VUndefined =
  binds_tooltip "bindTooltip" (layer_of "bindTooltip") "undefined – Cluster 1".
Proof. reflexivity. Qed.

Example tooltip_without_label :
  ClusterColor.function2 (feature_of [("kabkot", VStr "Kota A")])
    (layer_of "bindTooltip") VUndefined =
  binds_tooltip "bindTooltip" (layer_of "bindTooltip") "Kota A – undefined".
Proof. reflexivity. Qed.

Example tooltip_without_both :
  Flat.function2 (feature_of []) (layer_of "bindTooltip") VUndefined =
  binds_tooltip "bindTooltip" (layer_of "bindTooltip") "undefined – undefined".
Proof. reflexivity. Qed.

(** ** The default style of the cluster-colour file *)

Lemma cluster_function0_returns (feature context : value)
    (props : gmap string value) (cl : primitive) :
  has_properties feature props →
  read props "cluster" = VPrim cl →
  ClusterColor.function0 feature context =
  Ret (object_literal
    [ ("color", VStr "#ffffff");
      ("weight", VNum lit_1);
      ("fillColor",
        or_else (color_under (primitive_to_string cl)) (VStr "#808080"));
      ("fillOpacity", VNum lit_0_7) ]).
Proof.
  intros Hf Hcl. unfold ClusterColor.function0.
  rewrite (get_properties _ _ Hf). repeat step. rewrite Hcl.
  change (get_computed ?colors (VPrim cl))
    with (get colors (primitive_to_string cl)).
  by rewrite colors_member, ret_bind.
Qed.

(** The key of an integer cluster is "1" only for 1 and "0" only for 0. *)
Lemma integer_key (z : Z) :
  (number_to_string (number_of_Z z) = "1" ↔ z = 1%Z) ∧
  (number_to_string (number_of_Z z) = "0" ↔ z = 0%Z).
Proof.
  destruct z as [|p|p]; [by split; split| |]; cbn [number_of_Z].
  - destruct (print_integer_shape false p)
      as (c & rest & Heq & _ & Hc0 & Hone).
    rewrite app_empty in Heq. split; split.
    + intros H. rewrite Heq in H. injection H as -> ->.
      f_equal. apply digits_inj. by rewrite Hone.
    + by intros [= ->].
    + intros H. rewrite Heq in H. by injection H as -> _.
    + intros [=].
  - destruct (print_integer_shape true p) as (c & rest & Heq & _).
    change (sign true +:+ String c rest) with (String "-" (String c rest)) in Heq.
    split; split; intros H; try discriminate H;
      rewrite Heq in H; discriminate H.
Qed.

Lemma color_under_integer (z : Z) :
  or_else (color_under (number_to_string (number_of_Z z))) (VStr "#808080") =
  VStr (default "#808080" (palette !! z)).
Proof.
  destruct (integer_key z) as [H1 H0]. unfold color_under, palette.
  case_decide as E1.
  { apply H1 in E1 as ->. reflexivity. }
  case_decide as E0.
  { apply H0 in E0 as ->. reflexivity. }
  rewrite inherited_number.
  rewrite lookup_insert_ne by (intros <-; by apply E0, H0).
  rewrite lookup_singleton_ne by (intros <-; by apply E1, H1).
  reflexivity.
Qed.

(** C6: in the cluster-colour variant the default style maps the cluster
    integer through the lookup [{0: '#1f77b4', 1: '#ff7f0e'}] and falls back
    to '#808080' for every integer outside it; cluster 1 gets '#ff7f0e' and
    cluster 5 gets '#808080'. *)
Theorem cluster_defaultStyle_palette (feature context : value)
    (props : gmap string value) (z : Z) :
  has_properties feature props →
  props !! "cluster" = Some (VNum (number_of_Z z)) →
  ∃ style,
    ClusterColor.function0 feature context = Ret style ∧
    field style "fillColor" = Some (VStr (default "#808080" (palette !! z))) ∧
    (z = 1%Z → field style "fillColor" = Some (VStr "#ff7f0e")) ∧
    (z = 5%Z → field style "fillColor" = Some (VStr "#808080")).
Proof.
  intros Hf Hcl.
  rewrite (cluster_function0_returns _ _ props (PNum (number_of_Z z)) Hf)
    by (unfold read; by rewrite Hcl).
  eexists. split; [reflexivity|].
  change (primitive_to_string (PNum (number_of_Z z)))
    with (number_to_string (number_of_Z z)).
  rewrite color_under_integer.
  split; [apply style_fields|]. split; intros ->; reflexivity.
Qed.

Lemma cluster_defaultStyle_palette_witness :
  let feature := feature_of [("cluster", VNum (number_of_Z 1))] in
  let props : gmap string value := {[ "cluster" := VNum (number_of_Z 1) ]} in
  has_properties feature props ∧
  props !! "cluster" = Some (VNum (number_of_Z 1)) ∧
  ∃ style,
    ClusterColor.function0 feature VUndefined = Ret style ∧
    field style "fillColor" = Some (VStr "#ff7f0e").
Proof.
  intros feature props.
  assert (Hf : has_properties feature props) by (eexists; split; reflexivity).
  split; [exact Hf|]. split; [reflexivity|].
  destruct (cluster_defaultStyle_palette feature VUndefined props 1 Hf eq_refl)
    as (style & Hrun & _ & Hone & _).
  exists style. split; [exact Hrun|exact (Hone eq_refl)].
Defined.

Example cluster_5_falls_back :
  ∃ style,
    ClusterColor.function0 (feature_of [("cluster", VNum (number_of_Z 5))])
      VUndefined = Ret style ∧
    field style "fillColor" = Some (VStr "#808080").
Proof. eexists. split; reflexivity. Qed.

Example cluster_0_is_blue :
  ∃ style,
    ClusterColor.function0 (feature_of [("cluster", VNum (number_of_Z 0))])
      VUndefined = Ret style ∧
    field style "fillColor" = Some (VStr "#1f77b4").
Proof. eexists. split; reflexivity. Qed.

(** Without a cluster the key is "undefined", which the table lacks. *)
Example cluster_absent_falls_back :
  ∃ style,
    ClusterColor.function0 (feature_of [("kabkot", VStr "Kota A")])
      VUndefined = Ret style ∧
    field style "fillColor" = Some (VStr "#808080").
Proof. eexists. split; reflexivity. Qed.

(** A cluster that is not a number can name a member the table inherits:
    the fill colour is then that member, not a colour. *)
Example cluster_named_constructor :
  ∃ style,
    ClusterColor.function0 (feature_of [("cluster", VStr "constructor")])
      VUndefined = Ret style ∧
    field style "fillColor" = Some (VFunction "%Object%").
Proof. eexists. split; reflexivity. Qed.

(** ** No exception under the input contract *)

(** C8: when the feature is an object whose properties field is an object
    and the layer exposes bindTooltip, no callback of either variant throws,
    whichever of the keys fillColor, cluster, kabkot and cluster_label are
    present or absent (the values read for cluster, kabkot and
    cluster_label being primitive data, as the data model has them): the
    style callbacks return a style and the tooltip callback makes its one
    call and returns. *)
Theorem callbacks_do_not_throw (feature layer context : value)
    (props : gmap string value) (method : string) :
  has_properties feature props →
  exposes_bindTooltip layer method →
  is_object (read props "cluster") = false →
  is_object (read props "kabkot") = false →
  is_object (read props "cluster_label") = false →
  ((∃ style, Flat.function0 feature context = Ret style) ∧
   (∃ style, Flat.function1 feature context = Ret style) ∧
   (∃ text, Flat.function2 feature layer context =
            binds_tooltip method layer text)) ∧
  ((∃ style, ClusterColor.function0 feature context = Ret style) ∧
   (∃ style, ClusterColor.function1 feature context = Ret style) ∧
   (∃ text, ClusterColor.function2 feature layer context =
            binds_tooltip method layer text)).
Proof.
  intros Hf Hl Hcl Hk Hlabel.
  destruct (read props "cluster") as [cl| | |] eqn:Ecl; try discriminate Hcl.
  destruct (read props "kabkot") as [k| | |] eqn:Ek; try discriminate Hk.
  destruct (read props "cluster_label") as [l| | |] eqn:El;
    try discriminate Hlabel.
  pose proof (function2_returns _ _ context props _
                (primitive_to_string k) (primitive_to_string l) Hf Hl) as Hrun.
  rewrite Ek, El in Hrun.
  specialize (Hrun (prints_primitive k) (prints_primitive l)).
  repeat split.
  - rewrite (flat_function0_returns _ _ _ Hf). by eexists.
  - by eexists.
  - by eexists.
  - rewrite (cluster_function0_returns _ _ _ _ Hf Ecl). by eexists.
  - by eexists.
  - rewrite <- function2_variants. by eexists.
Qed.

Lemma callbacks_do_not_throw_witness :
  let feature := feature_of [("fillColor", VStr "#ff0000")] in
  let props : gmap string value := {[ "fillColor" := VStr "#ff0000" ]} in
  let layer := layer_of "bindTooltip" in
  has_properties feature props ∧
  exposes_bindTooltip layer "bindTooltip" ∧
  is_object (read props "cluster") = false ∧
  is_object (read props "kabkot") = false ∧
  is_object (read props "cluster_label") = false ∧
  ((∃ style, Flat.function0 feature VUndefined = Ret style) ∧
   (∃ style, Flat.function1 feature VUndefined = Ret style) ∧
   (∃ text, Flat.function2 feature layer VUndefined =
            binds_tooltip "bindTooltip" layer text)) ∧
  ((∃ style, ClusterColor.function0 feature VUndefined = Ret style) ∧
   (∃ style, ClusterColor.function1 feature VUndefined = Ret style) ∧
   (∃ text, ClusterColor.function2 feature layer VUndefined =
            binds_tooltip "bindTooltip" layer text)).
Proof.
  intros feature props layer.
  assert (Hf : has_properties feature props) by (eexists; split; reflexivity).
  assert (Hl : exposes_bindTooltip layer "bindTooltip")
    by (eexists; split; reflexivity).
  split; [exact Hf|]. split; [exact Hl|].
  split; [reflexivity|]. split; [reflexivity|]. split; [reflexivity|].
  apply (callbacks_do_not_throw feature layer VUndefined props "bindTooltip"
           Hf Hl); reflexivity.
Defined.

(** Outside the contract the reads do throw: a feature whose properties
    field is null, and a layer without bindTooltip. *)
Example null_properties_throw :
  Flat.function0 (object_literal [("properties", VNull)]) VUndefined =
    Throw TypeError ∧
  ClusterColor.function0 (object_literal [("properties", VNull)]) VUndefined =
    Throw TypeError ∧
  Flat.function2 (object_literal [("properties", VNull)])
    (layer_of "bindTooltip") VUndefined = Throw TypeError.
Proof. by repeat split. Qed.

Example layer_without_bindTooltip_throws :
  Flat.function2
    (feature_of [("kabkot", VStr "Kota A"); ("cluster_label", VStr "Cluster 1")])
    (object_literal []) VUndefined = Throw TypeError.
Proof. reflexivity. Qed.

(** ** The fields of the returned styles *)

Lemma or_else_string (v : value) (fallback : string) :
  is_string v = true ∨ to_boolean v = false →
  is_string (or_else v (VStr fallback)) = true.
Proof.
  intros [H|H]; unfold or_else.
  - by destruct (to_boolean v).
  - by rewrite H.
Qed.

Lemma full_style_intro (color : string) (weight : number) (fill : value)
    (opacity : number) :
  is_string fill = true →
  full_style (object_literal
    [ ("color", VStr color); ("weight", VNum weight);
      ("fillColor", fill); ("fillOpacity", VNum opacity) ]).
Proof.
  intros Hfill.
  destruct (style_fields (VStr color) (VNum weight) fill (VNum opacity))
    as (Hc & Hw & Hf & Ho).
  repeat split; eexists; (split; [eassumption|done]).
Qed.

(** C4, as amended: for features whose fillColor, when present, is a string
    and whose cluster, when present, is a number, every style returned by
    the default-style callbacks has the four fields color (string), weight
    (number), fillColor (string) and fillOpacity (number); every style
    returned by the hover callbacks has the three fields color (string),
    weight (number) and fillOpacity (number), and no fillColor field. *)
Theorem style_contract (feature context : value) (props : gmap string value) :
  has_properties feature props →
  absent_or is_string (props !! "fillColor") = true →
  absent_or is_number (props !! "cluster") = true →
  (∃ style, Flat.function0 feature context = Ret style ∧ full_style style) ∧
  (∃ style, ClusterColor.function0 feature context = Ret style ∧
            full_style style) ∧
  (∃ style, Flat.function1 feature context = Ret style ∧ hover_style style) ∧
  (∃ style, ClusterColor.function1 feature context = Ret style ∧
            hover_style style).
Proof.
  intros Hf Hfill Hcl. split; [|split; [|split]].
  - rewrite (flat_function0_returns _ _ _ Hf).
    eexists. split; [reflexivity|]. apply full_style_intro, or_else_string.
    unfold read. destruct (props !! "fillColor"); [by left|by right].
  - assert (∃ cl, read props "cluster" = VPrim cl ∧
                  inherited (primitive_to_string cl) = VUndefined)
      as (cl & Ecl & Hin).
    { unfold read. destruct (props !! "cluster") as [[[| | |n|]| | |]|];
        try discriminate Hcl.
      - exists (PNum n). split; [done|]. apply inherited_number.
      - by exists PUndefined. }
    rewrite (cluster_function0_returns _ _ _ _ Hf Ecl).
    eexists. split; [reflexivity|]. apply full_style_intro, or_else_string.
    unfold color_under. rewrite Hin. repeat case_decide; by auto.
  - eexists. split; [reflexivity|].
    repeat split; try (eexists; split; reflexivity).
  - eexists. split; [reflexivity|].
    repeat split; try (eexists; split; reflexivity).
Qed.

Lemma style_contract_witness :
  let feature :=
    feature_of [("fillColor", VStr "#ff0000"); ("cluster", VNum (number_of_Z 1))] in
  let props : gmap string value :=
    {[ "fillColor" := VStr "#ff0000"; "cluster" := VNum (number_of_Z 1) ]} in
  has_properties feature props ∧
  absent_or is_string (props !! "fillColor") = true ∧
  absent_or is_number (props !! "cluster") = true ∧
  (∃ style, Flat.function0 feature VUndefined = Ret style ∧ full_style style) ∧
  (∃ style, ClusterColor.function0 feature VUndefined = Ret style ∧
            full_style style) ∧
  (∃ style, Flat.function1 feature VUndefined = Ret style ∧
            hover_style style) ∧
  (∃ style, ClusterColor.function1 feature VUndefined = Ret style ∧
            hover_style style).
Proof.
  intros feature props.
  assert (Hf : has_properties feature props) by (eexists; split; reflexivity).
  split; [exact Hf|]. split; [reflexivity|]. split; [reflexivity|].
  apply (style_contract feature VUndefined props Hf); reflexivity.
Defined.

(** C4 as it is written fails: the style returned by the hover callback has
    no fillColor field. *)
Lemma highlightStyle_lacks_fillColor :
  ∃ style,
    Flat.function1 (feature_of [("fillColor", VStr "#ff0000")]) VUndefined =
      Ret style ∧
    field style "fillColor" = None ∧
    ¬ full_style style.
Proof.
  eexists. split; [reflexivity|]. split; [reflexivity|].
  intros (_ & _ & (v & Hv & _) & _). discriminate Hv.
Qed.

(** ** Registering the callbacks *)

Lemma assign_default (code_units : string → list string)
    (old namespace : value) :
  object_assign code_units [old; object_literal [("default", namespace)]] =
  VObj (<["default" := namespace]>
          (delete "__proto__" (own_enumerable code_units old))).
Proof.
  unfold object_assign, assign_one. cbn [foldl]. f_equal.
  change (own_enumerable code_units (object_literal [("default", namespace)]))
    with (<["default" := namespace]> (∅ : gmap string value)).
  rewrite delete_insert_ne by done. rewrite delete_empty.
  rewrite (right_id_L ∅ (∪)).
  by rewrite insert_empty, <- insert_union_singleton_l.
Qed.

Lemma flat_script_returns (code_units : string → list string)
    (window : gmap string value) :
  FlatScript.script code_units window =
  Ret (<["dashExtensions" :=
         VObj (<["default" := FlatScript.default_namespace]>
                 (delete "__proto__"
                    (own_enumerable code_units
                       (member window "dashExtensions"))))]> window).
Proof.
  unfold FlatScript.script. cbn [get]. rewrite ret_bind.
  by rewrite assign_default.
Qed.

Lemma cluster_script_returns (code_units : string → list string)
    (window : gmap string value) :
  ClusterColorScript.script code_units window =
  Ret (<["dashExtensions" :=
         VObj (<["default" := ClusterColorScript.default_namespace]>
                 (delete "__proto__"
                    (own_enumerable code_units
                       (member window "dashExtensions"))))]> window).
Proof.
  unfold ClusterColorScript.script. cbn [get]. rewrite ret_bind.
  by rewrite assign_default.
Qed.

Lemma member_dashExtensions (window : gmap string value) :
  member window "dashExtensions" = read window "dashExtensions".
Proof. unfold member, read. by destruct (window !! "dashExtensions"). Qed.






(** X4: on a [window] where [dashExtensions] is missing, or is undefined,
    null, a boolean or a number, each statement still returns normally, and
    [window.dashExtensions] becomes an object whose only property is
    [default]. *)
Theorem script_on_fresh_window (code_units : string → list string)
    (window : gmap string value) :
  (window !! "dashExtensions" = None ∨
   ∃ p, window !! "dashExtensions" = Some (VPrim p) ∧
        is_string (VPrim p) = false) →
  FlatScript.script code_units window =
    Ret (<["dashExtensions" :=
           object_literal [("default", FlatScript.default_namespace)]]>
           window) ∧
  ClusterColorScript.script code_units window =
    Ret (<["dashExtensions" :=
           object_literal [("default", ClusterColorScript.default_namespace)]]>
           window).
Proof.
  intros Hold.
  assert (Hnone : own_enumerable code_units (member window "dashExtensions")
                  = ∅).
  { unfold member. destruct Hold as [->|(p & -> & Hp)]; [done|].
    by destruct p. }
  rewrite flat_script_returns, cluster_script_returns, Hnone, delete_empty.
  done.
Qed.

Lemma script_on_fresh_window_witness :
  ((∅ : gmap string value) !! "dashExtensions" = None ∨
   ∃ p, (∅ : gmap string value) !! "dashExtensions" = Some (VPrim p) ∧
        is_string (VPrim p) = false) ∧
  FlatScript.script (λ _, []) ∅ =
    Ret (<["dashExtensions" :=
           object_literal [("default", FlatScript.default_namespace)]]> ∅) ∧
  ClusterColorScript.script (λ _, []) ∅ =
    Ret (<["dashExtensions" :=
           object_literal [("default", ClusterColorScript.default_namespace)]]>
           ∅).
Proof.
  assert (H : (∅ : gmap string value) !! "dashExtensions" = None ∨
              ∃ p, (∅ : gmap string value) !! "dashExtensions" =
                     Some (VPrim p) ∧ is_string (VPrim p) = false)
    by (left; reflexivity).
  split; [exact H|]. exact (script_on_fresh_window (λ _, []) ∅ H).
Defined.

(** ** Features without properties, layers without bindTooltip *)

Lemma get_outcome (base : value) (key : string) :
  (is_nullish base = true ∧ get base key = Throw TypeError) ∨
  (is_nullish base = false ∧ ∃ v, get base key = Ret v).
Proof.
  destruct base as [[| | | |]| | |]; cbn;
    first [by left | right; split; [done|by eexists]].
Qed.

Lemma lacks_properties_cases (feature : value) :
  if lacks_properties feature
  then get feature "properties" = Throw TypeError ∨
       ∃ p, get feature "properties" = Ret p ∧
            get p "fillColor" = Throw TypeError ∧
            get p "cluster" = Throw TypeError ∧
            get p "kabkot" = Throw TypeError
  else ∃ p, get feature "properties" = Ret p ∧ is_nullish p = false.
Proof.
  unfold lacks_properties.
  destruct (get_outcome feature "properties") as [[_ ->]|[_ [p ->]]];
    [by left|].
  destruct (is_nullish p) eqn:Hp; [|by exists p].
  right. exists p. split; [done|].
  by destruct p as [[| | | |]| | |].
Qed.

(** X5: the default style of the flat variant throws a TypeError exactly
    when the feature is undefined or null or its [properties] is undefined
    (the field is missing) or null; for every other feature, whatever its
    properties hold, it returns a style. *)
Theorem flat_function0_throws_iff (feature context : value) :
  (Flat.function0 feature context = Throw TypeError ↔
   lacks_properties feature = true) ∧
  (lacks_properties feature = false →
   ∃ style, Flat.function0 feature context = Ret style).
Proof.
  pose proof (lacks_properties_cases feature) as H.
  unfold Flat.function0.
  destruct (lacks_properties feature).
  - split; [|discriminate]. split; [done|intros _].
    destruct H as [->|(p & -> & Hfill & _)]; [reflexivity|].
    by rewrite ret_bind, Hfill.
  - destruct H as (p & -> & Hp). rewrite ret_bind.
    destruct (get_outcome p "fillColor") as [[Hn _]|[_ [v ->]]];
      [congruence|].
    rewrite ret_bind. split; [split; discriminate|]. intros _. by eexists.
Qed.

(** X6: on a feature that is undefined or null, or whose [properties] is
    missing, undefined or null, the default style of the cluster-colour
    variant and the tooltip callback of both variants throw a TypeError, for
    every layer; the tooltip callback makes no call before it throws. *)
Theorem callbacks_throw_without_properties (feature layer context : value) :
  lacks_properties feature = true →
  ClusterColor.function0 feature context = Throw TypeError ∧
  Flat.function2 feature layer context = Throw TypeError ∧
  ClusterColor.function2 feature layer context = Throw TypeError ∧
  ∀ host, trace host (Flat.function2 feature layer context) = [].
Proof.
  intros Hlacks. pose proof (lacks_properties_cases feature) as H.
  rewrite Hlacks in H.
  assert (ClusterColor.function0 feature context = Throw TypeError ∧
          Flat.function2 feature layer context = Throw TypeError) as [H0 H2].
  { unfold ClusterColor.function0, Flat.function2.
    destruct H as [->|(p & -> & _ & Hcl & Hk)]; [by split|].
    by rewrite !ret_bind, Hcl, Hk. }
  split; [done|]. split; [done|]. split; [by rewrite <- function2_variants|].
  intros host. by rewrite H2.
Qed.

Lemma callbacks_throw_without_properties_witness :
  let feature := object_literal [("properties", VNull)] in
  let layer := layer_of "bindTooltip" in
  lacks_properties feature = true ∧
  ClusterColor.function0 feature VUndefined = Throw TypeError ∧
  Flat.function2 feature layer VUndefined = Throw TypeError ∧
  ClusterColor.function2 feature layer VUndefined = Throw TypeError ∧
  ∀ host, trace host (Flat.function2 feature layer VUndefined) = [].
Proof.
  intros feature layer. split; [reflexivity|].
  apply (callbacks_throw_without_properties feature layer VUndefined).
  reflexivity.
Defined.

(** X7: when the feature has its properties and kabkot and cluster_label
    print, but the layer is undefined or null or its [bindTooltip] is not a
    function, the tooltip callback of both variants throws a TypeError and
    binds nothing. *)
Theorem tooltip_needs_bindTooltip (feature layer context : value)
    (props : gmap string value) (k l : string) :
  has_properties feature props →
  prints_as (read props "kabkot") k →
  prints_as (read props "cluster_label") l →
  lacks_bindTooltip layer = true →
  Flat.function2 feature layer context = Throw TypeError ∧
  ClusterColor.function2 feature layer context = Throw TypeError.
Proof.
  intros Hf (pk & Hk & _) (pl & Hl & _) Hlayer.
  assert (Flat.function2 feature layer context = Throw TypeError) as H2.
  { unfold Flat.function2. rewrite (get_properties _ _ Hf). repeat step.
    unfold lacks_bindTooltip in Hlayer.
    destruct (get_outcome layer "bindTooltip") as [[_ ->]|[_ [m Hm]]];
      [done|].
    rewrite Hm in Hlayer |- *. rewrite ret_bind.
    unfold add_string_r, add_string_l. rewrite Hk. repeat step.
    rewrite Hl. repeat step. by destruct m. }
  split; [done|by rewrite <- function2_variants].
Qed.

Lemma tooltip_needs_bindTooltip_witness :
  let feature :=
    feature_of [("kabkot", VStr "Kota A"); ("cluster_label", VStr "Cluster 1")] in
  let props : gmap string value :=
    {[ "kabkot" := VStr "Kota A"; "cluster_label" := VStr "Cluster 1" ]} in
  let layer := object_literal [("bindTooltip", VStr "soon")] in
  has_properties feature props ∧
  prints_as (read props "kabkot") "Kota A" ∧
  prints_as (read props "cluster_label") "Cluster 1" ∧
  lacks_bindTooltip layer = true ∧
  Flat.function2 feature layer VUndefined = Throw TypeError ∧
  ClusterColor.function2 feature layer VUndefined = Throw TypeError.
Proof.
  intros feature props layer.
  assert (Hf : has_properties feature props) by (eexists; split; reflexivity).
  assert (Hk : prints_as (read props "kabkot") "Kota A")
    by (eexists; split; reflexivity).
  assert (Hl : prints_as (read props "cluster_label") "Cluster 1")
    by (eexists; split; reflexivity).
  split; [exact Hf|]. split; [exact Hk|]. split; [exact Hl|].
  split; [reflexivity|].
  apply (tooltip_needs_bindTooltip feature layer VUndefined props
           "Kota A" "Cluster 1" Hf Hk Hl).
  reflexivity.
Defined.

Lemma flat_function0_throws_iff_witness :
  let feature := feature_of [("kabkot", VStr "Kota A")] in
  lacks_properties feature = false ∧
  ∃ style, Flat.function0 feature VUndefined = Ret style.
Proof.
  intros feature. split; [reflexivity|].
  destruct (flat_function0_throws_iff feature VUndefined) as [_ H].
  apply H. reflexivity.
Defined.

(** ** What each callback reads *)

Lemma cluster_function0_reads (feature context : value)
    (props : gmap string value) :
  has_properties feature props →
  ClusterColor.function0 feature context =
  (color ← get_computed
             (object_literal [("0", VStr "#1f77b4"); ("1", VStr "#ff7f0e")])
             (read props "cluster");
   mret (object_literal
     [ ("color", VStr "#ffffff");
       ("weight", VNum lit_1);
       ("fillColor", or_else color (VStr "#808080"));
       ("fillOpacity", VNum lit_0_7) ])).
Proof.
  intros Hf. unfold ClusterColor.function0.
  rewrite (get_properties _ _ Hf). by repeat step.
Qed.

Lemma function2_reads (feature layer context : value)
    (props : gmap string value) :
  has_properties feature props →
  Flat.function2 feature layer context =
  (bindTooltip ← get layer "bindTooltip";
   left ← add_string_r (read props "kabkot") " – ";
   text ← add_string_l left (read props "cluster_label");
   _ ← call bindTooltip layer
         [VStr text; object_literal [("sticky", VBool true)]];
   mret ()).
Proof.
  intros Hf. unfold Flat.function2.
  rewrite (get_properties _ _ Hf). by repeat step.
Qed.

(** X8: each callback reads only its own properties.  Two features (with
    any contexts) get the same flat default style when their properties
    agree on fillColor, the same cluster-colour default style when they
    agree on cluster, and the same tooltip call on a given layer when they
    agree on kabkot and cluster_label: the flat style ignores cluster, the
    cluster-colour style ignores fillColor, and nothing else in the feature
    matters. *)
Theorem callbacks_read_their_own_properties
    (feature1 feature2 layer context1 context2 : value)
    (props1 props2 : gmap string value) :
  has_properties feature1 props1 →
  has_properties feature2 props2 →
  (props1 !! "fillColor" = props2 !! "fillColor" →
   Flat.function0 feature1 context1 = Flat.function0 feature2 context2) ∧
  (props1 !! "cluster" = props2 !! "cluster" →
   ClusterColor.function0 feature1 context1 =
   ClusterColor.function0 feature2 context2) ∧
  (props1 !! "kabkot" = props2 !! "kabkot" →
   props1 !! "cluster_label" = props2 !! "cluster_label" →
   Flat.function2 feature1 layer context1 =
     Flat.function2 feature2 layer context2 ∧
   ClusterColor.function2 feature1 layer context1 =
     ClusterColor.function2 feature2 layer context2).
Proof.
  intros H1 H2. split; [|split].
  - intros Hfill.
    rewrite (flat_function0_returns _ _ _ H1), (flat_function0_returns _ _ _ H2).
    unfold read. by rewrite Hfill.
  - intros Hcl.
    rewrite (cluster_function0_reads _ _ _ H1), (cluster_function0_reads _ _ _ H2).
    unfold read. by rewrite Hcl.
  - intros Hk Hl.
    assert (Flat.function2 feature1 layer context1 =
            Flat.function2 feature2 layer context2) as H.
    { rewrite (function2_reads _ _ _ _ H1), (function2_reads _ _ _ _ H2).
      unfold read. by rewrite Hk, Hl. }
    split; [done|]. by rewrite <- !function2_variants.
Qed.

Lemma callbacks_read_their_own_properties_witness :
  let feature1 :=
    feature_of [("fillColor", VStr "#ff0000"); ("cluster", VNum (number_of_Z 1))] in
  let props1 : gmap string value :=
    {[ "fillColor" := VStr "#ff0000"; "cluster" := VNum (number_of_Z 1) ]} in
  let feature2 :=
    feature_of [("fillColor", VStr "#ff0000"); ("cluster", VNum (number_of_Z 0))] in
  let props2 : gmap string value :=
    {[ "fillColor" := VStr "#ff0000"; "cluster" := VNum (number_of_Z 0) ]} in
  has_properties feature1 props1 ∧
  has_properties feature2 props2 ∧
  props1 !! "fillColor" = props2 !! "fillColor" ∧
  Flat.function0 feature1 VUndefined = Flat.function0 feature2 VNull.
Proof.
  intros feature1 props1 feature2 props2.
  assert (H1 : has_properties feature1 props1)
    by (eexists; split; reflexivity).
  assert (H2 : has_properties feature2 props2)
    by (eexists; split; reflexivity).
  split; [exact H1|]. split; [exact H2|]. split; [reflexivity|].
  destruct (callbacks_read_their_own_properties feature1 feature2 VUndefined
              VUndefined VNull props1 props2 H1 H2) as [H _].
  apply H. reflexivity.
Defined.

(** ** Clusters that are not integers *)

Lemma cluster_function0_by_key (feature context : value)
    (props : gmap string value) (key : string) :
  has_properties feature props →
  to_property_key (read props "cluster") = Ret key →
  ClusterColor.function0 feature context =
  Ret (object_literal
    [ ("color", VStr "#ffffff");
      ("weight", VNum lit_1);
      ("fillColor", or_else (color_under key) (VStr "#808080"));
      ("fillOpacity", VNum lit_0_7) ]).
Proof.
  intros Hf Hkey. rewrite (cluster_function0_reads _ _ _ Hf).
  change (get_computed ?colors ?cl)
    with (name ← to_property_key cl; get colors name).
  by rewrite Hkey, ret_bind, colors_member, ret_bind.
Qed.

(** X9: the colour table is read under the printed cluster, so a cluster
    that prints as "0" or "1" without being the integer (the strings '0'
    and '1', the arrays [[0]] and [[1]]) is coloured like the integer. *)
Theorem cluster_defaultStyle_printed_key (feature context : value)
    (props : gmap string value) (key : string) :
  has_properties feature props →
  to_property_key (read props "cluster") = Ret key →
  key = "0" ∨ key = "1" →
  ∃ style,
    ClusterColor.function0 feature context = Ret style ∧
    field style "fillColor" =
      Some (VStr (if decide (key = "1") then "#ff7f0e" else "#1f77b4")).
Proof.
  intros Hf Hkey Hk. rewrite (cluster_function0_by_key _ _ _ _ Hf Hkey).
  eexists. split; [reflexivity|]. by destruct Hk as [-> | ->].
Qed.

Lemma cluster_defaultStyle_printed_key_witness :
  let feature := feature_of [("cluster", VArr [VStr "1"])] in
  let props : gmap string value := {[ "cluster" := VArr [VStr "1"] ]} in
  has_properties feature props ∧
  to_property_key (read props "cluster") = Ret "1" ∧
  ("1" = "0" ∨ "1" = "1") ∧
  ∃ style,
    ClusterColor.function0 feature VUndefined = Ret style ∧
    field style "fillColor" = Some (VStr "#ff7f0e").
Proof.
  intros feature props.
  assert (Hf : has_properties feature props) by (eexists; split; reflexivity).
  split; [exact Hf|]. split; [reflexivity|]. split; [right; reflexivity|].
  apply (cluster_defaultStyle_printed_key feature VUndefined props "1" Hf);
    [reflexivity|right; reflexivity].
Defined.

(** X10: for a cluster that is missing or is any primitive other than a
    string (undefined, null, a boolean, any Number: a fraction, NaN, an
    infinity, negative zero) the fill colour is always one of the three
    colour strings: the table's colour when the cluster prints as "0" or
    "1", '#808080' otherwise. *)
Theorem cluster_defaultStyle_non_string (feature context : value)
    (props : gmap string value) (cl : primitive) :
  has_properties feature props →
  read props "cluster" = VPrim cl →
  is_string (VPrim cl) = false →
  ∃ style,
    ClusterColor.function0 feature context = Ret style ∧
    field style "fillColor" =
      Some (VStr (if decide (primitive_to_string cl = "1") then "#ff7f0e"
                  else if decide (primitive_to_string cl = "0") then "#1f77b4"
                  else "#808080")).
Proof.
  intros Hf Hcl Hs.
  rewrite (cluster_function0_returns _ _ _ _ Hf Hcl).
  eexists. split; [reflexivity|].
  assert (inherited (primitive_to_string cl) = VUndefined) as Hin.
  { destruct cl as [| |[]|n|s]; try done. apply inherited_number. }
  unfold color_under. rewrite Hin. by repeat case_decide.
Qed.

Lemma cluster_defaultStyle_non_string_witness :
  let feature := feature_of [("cluster", VNum (Zero true))] in
  let props : gmap string value := {[ "cluster" := VNum (Zero true) ]} in
  has_properties feature props ∧
  read props "cluster" = VNum (Zero true) ∧
  is_string (VNum (Zero true)) = false ∧
  ∃ style,
    ClusterColor.function0 feature VUndefined = Ret style ∧
    field style "fillColor" = Some (VStr "#1f77b4").
Proof.
  intros feature props.
  assert (Hf : has_properties feature props) by (eexists; split; reflexivity).
  split; [exact Hf|]. split; [reflexivity|]. split; [reflexivity|].
  apply (cluster_defaultStyle_non_string feature VUndefined props
           (PNum (Zero true)) Hf); reflexivity.
Defined.

(** X11: a cluster that is a string naming a member of Object.prototype
    ('constructor', 'toString', 'valueOf', 'hasOwnProperty', ...) finds that
    member in the colour table: it is truthy, so the default style of the
    cluster-colour variant returns it as fillColor, a function instead of a
    colour string. *)
Theorem cluster_defaultStyle_inherited_name (feature context : value)
    (props : gmap string value) (name : string) (inherited_member : value) :
  has_properties feature props →
  props !! "cluster" = Some (VStr name) →
  object_prototype_methods !! name = Some inherited_member →
  ∃ style,
    ClusterColor.function0 feature context = Ret style ∧
    field style "fillColor" = Some inherited_member ∧
    is_function inherited_member = true.
Proof.
  intros Hf Hcl Hname.
  rewrite (cluster_function0_returns _ _ props (PStr name) Hf)
    by (unfold read; by rewrite Hcl).
  eexists. split; [reflexivity|].
  apply elem_of_list_to_map_2 in Hname.
  repeat (apply elem_of_cons in Hname as [[= -> ->]|Hname];
          [by split|]).
  by apply elem_of_nil in Hname.
Qed.

Lemma cluster_defaultStyle_inherited_name_witness :
  let feature := feature_of [("cluster", VStr "toString")] in
  let props : gmap string value := {[ "cluster" := VStr "toString" ]} in
  has_properties feature props ∧
  props !! "cluster" = Some (VStr "toString") ∧
  object_prototype_methods !! "toString" = Some (VFunction object_toString) ∧
  ∃ style,
    ClusterColor.function0 feature VUndefined = Ret style ∧
    field style "fillColor" = Some (VFunction object_toString) ∧
    is_function (VFunction object_toString) = true.
Proof.
  intros feature props.
  assert (Hf : has_properties feature props) by (eexists; split; reflexivity).
  split; [exact Hf|]. split; [reflexivity|]. split; [reflexivity|].
  apply (cluster_defaultStyle_inherited_name feature VUndefined props
           "toString" (VFunction object_toString) Hf); reflexivity.
Defined.

(** ** Properties that are objects *)

Lemma ordinary_to_primitive_plain (h : hint) (o : gmap string value) :
  o !! "toString" = None →
  o !! "valueOf" = None →
  to_primitive h (VObj o) = Ret (PStr "[object Object]").
Proof.
  intros Hs Hv. cbn [to_primitive]. unfold ordinary_to_primitive, member.
  rewrite Hs, Hv. by destruct h.
Qed.

Lemma ordinary_to_primitive_stuck (h : hint) (o : gmap string value)
    (toString : value) :
  o !! "toString" = Some toString →
  is_function toString = false →
  is_function (default VUndefined (o !! "valueOf")) = false →
  to_primitive h (VObj o) = Throw TypeError.
Proof.
  intros Hs Hfun Hv. cbn [to_primitive]. unfold ordinary_to_primitive, member.
  rewrite Hs. destruct (o !! "valueOf") as [v|].
  - cbn in Hv. destruct h; destruct toString, v; done.
  - destruct h; by destruct toString.
Qed.

(** X12: a kabkot that is a plain object (no toString or valueOf of its
    own) does not fail: it is printed as [[object Object]], and the tooltip
    callback of both variants binds the text
    [[object Object] – cluster_label]. *)
Theorem tooltip_prints_plain_object (feature layer context : value)
    (props kabkot : gmap string value) (method l : string) :
  has_properties feature props →
  exposes_bindTooltip layer method →
  props !! "kabkot" = Some (VObj kabkot) →
  kabkot !! "toString" = None →
  kabkot !! "valueOf" = None →
  prints_as (read props "cluster_label") l →
  Flat.function2 feature layer context =
    binds_tooltip method layer (("[object Object]" +:+ " – ") +:+ l) ∧
  ClusterColor.function2 feature layer context =
    binds_tooltip method layer (("[object Object]" +:+ " – ") +:+ l).
Proof.
  intros Hf Hl Hk Hs Hv Hlabel.
  assert (Flat.function2 feature layer context =
          binds_tooltip method layer (("[object Object]" +:+ " – ") +:+ l))
    as H.
  { apply (function2_returns _ _ _ props); [done|done| |done].
    unfold read. rewrite Hk. exists (PStr "[object Object]").
    split; [by apply ordinary_to_primitive_plain|reflexivity]. }
  split; [done|by rewrite <- function2_variants].
Qed.

Lemma tooltip_prints_plain_object_witness :
  let kabkot : gmap string value := {[ "name" := VStr "Kota A" ]} in
  let feature :=
    feature_of [("kabkot", VObj kabkot); ("cluster_label", VStr "Cluster 1")] in
  let props : gmap string value :=
    {[ "kabkot" := VObj kabkot; "cluster_label" := VStr "Cluster 1" ]} in
  let layer := layer_of "bindTooltip" in
  has_properties feature props ∧
  exposes_bindTooltip layer "bindTooltip" ∧
  props !! "kabkot" = Some (VObj kabkot) ∧
  kabkot !! "toString" = None ∧
  kabkot !! "valueOf" = None ∧
  prints_as (read props "cluster_label") "Cluster 1" ∧
  Flat.function2 feature layer VUndefined =
    binds_tooltip "bindTooltip" layer "[object Object] – Cluster 1" ∧
  ClusterColor.function2 feature layer VUndefined =
    binds_tooltip "bindTooltip" layer "[object Object] – Cluster 1".
Proof.
  intros kabkot feature props layer.
  assert (Hf : has_properties feature props) by (eexists; split; reflexivity).
  assert (Hl : exposes_bindTooltip layer "bindTooltip")
    by (eexists; split; reflexivity).
  assert (Hlabel : prints_as (read props "cluster_label") "Cluster 1")
    by (eexists; split; reflexivity).
  split; [exact Hf|]. split; [exact Hl|]. split; [reflexivity|].
  split; [reflexivity|]. split; [reflexivity|]. split; [exact Hlabel|].
  apply (tooltip_prints_plain_object feature layer VUndefined props kabkot
           "bindTooltip" "Cluster 1" Hf Hl); [reflexivity..|exact Hlabel].
Defined.

(** X13: an object whose own [toString] is not a function, and whose own
    [valueOf], if it has one, is not a function either, cannot be printed.
    With such a kabkot the tooltip callback of both variants throws a
    TypeError for every layer, calling nothing; with such a cluster the
    default style of the cluster-colour variant throws a TypeError. *)
Theorem unprintable_property_throws (feature layer context : value)
    (props o : gmap string value) (toString : value) :
  has_properties feature props →
  o !! "toString" = Some toString →
  is_function toString = false →
  is_function (default VUndefined (o !! "valueOf")) = false →
  (props !! "kabkot" = Some (VObj o) →
   Flat.function2 feature layer context = Throw TypeError ∧
   ClusterColor.function2 feature layer context = Throw TypeError) ∧
  (props !! "cluster" = Some (VObj o) →
   ClusterColor.function0 feature context = Throw TypeError).
Proof.
  intros Hf Hs Hfun Hv. split.
  - intros Hk.
    assert (Flat.function2 feature layer context = Throw TypeError) as H.
    { rewrite (function2_reads _ _ _ _ Hf). unfold read. rewrite Hk.
      change (default VUndefined (Some (VObj o))) with (VObj o).
      unfold add_string_r.
      rewrite (ordinary_to_primitive_stuck _ _ _ Hs Hfun Hv).
      by destruct (get_outcome layer "bindTooltip") as [[_ ->]|[_ [m ->]]]. }
    split; [done|by rewrite <- function2_variants].
  - intros Hcl. rewrite (cluster_function0_reads _ _ _ Hf).
    unfold read. rewrite Hcl.
    change (default VUndefined (Some (VObj o))) with (VObj o).
    change (get_computed ?colors ?cl)
      with (name ← to_property_key cl; get colors name).
    unfold to_property_key.
    by rewrite (ordinary_to_primitive_stuck _ _ _ Hs Hfun Hv).
Qed.

Lemma unprintable_property_throws_witness :
  let o : gmap string value := {[ "toString" := VStr "Kota A" ]} in
  let feature := feature_of [("kabkot", VObj o); ("cluster", VObj o)] in
  let props : gmap string value :=
    {[ "kabkot" := VObj o; "cluster" := VObj o ]} in
  let layer := layer_of "bindTooltip" in
  has_properties feature props ∧
  o !! "toString" = Some (VStr "Kota A") ∧
  is_function (VStr "Kota A") = false ∧
  is_function (default VUndefined (o !! "valueOf")) = false ∧
  props !! "kabkot" = Some (VObj o) ∧
  props !! "cluster" = Some (VObj o) ∧
  Flat.function2 feature layer VUndefined = Throw TypeError ∧
  ClusterColor.function2 feature layer VUndefined = Throw TypeError ∧
  ClusterColor.function0 feature VUndefined = Throw TypeError.
Proof.
  intros o feature props layer.
  assert (Hf : has_properties feature props) by (eexists; split; reflexivity).
  split; [exact Hf|]. split; [reflexivity|]. split; [reflexivity|].
  split; [reflexivity|]. split; [reflexivity|]. split; [reflexivity|].
  destruct (unprintable_property_throws feature layer VUndefined props o
              (VStr "Kota A") Hf eq_refl eq_refl eq_refl) as [H2 H0].
  destruct (H2 eq_refl) as [Hflat Hcluster].
  split; [exact Hflat|]. split; [exact Hcluster|exact (H0 eq_refl)].
Defined.

(** ** The fill colour is never falsy *)

Lemma or_else_truthy (a b : value) :
  to_boolean b = true → to_boolean (or_else a b) = true.
Proof. intros Hb. unfold or_else. by destruct (to_boolean a) eqn:Ha. Qed.

(** X14: whatever the properties hold, a style returned by a default-style
    callback has a truthy fillColor: never undefined, null, false, 0, NaN or
    the empty string.  The flat variant returns one for every feature that
    has its properties; the cluster-colour variant for every such feature
    whose cluster prints. *)
Theorem defaultStyle_fillColor_truthy (feature context : value)
    (props : gmap string value) :
  has_properties feature props →
  (∃ style fill,
     Flat.function0 feature context = Ret style ∧
     field style "fillColor" = Some fill ∧ to_boolean fill = true) ∧
  (∀ key, to_property_key (read props "cluster") = Ret key →
     ∃ style fill,
       ClusterColor.function0 feature context = Ret style ∧
       field style "fillColor" = Some fill ∧ to_boolean fill = true).
Proof.
  intros Hf. split.
  - rewrite (flat_function0_returns _ _ _ Hf).
    eexists _, _. split; [reflexivity|]. split; [apply style_fields|].
    by apply or_else_truthy.
  - intros key Hkey. rewrite (cluster_function0_by_key _ _ _ _ Hf Hkey).
    eexists _, _. split; [reflexivity|]. split; [apply style_fields|].
    by apply or_else_truthy.
Qed.

Lemma defaultStyle_fillColor_truthy_witness :
  let feature := feature_of [("fillColor", VNum (Zero false))] in
  let props : gmap string value := {[ "fillColor" := VNum (Zero false) ]} in
  has_properties feature props ∧
  ∃ style fill,
    Flat.function0 feature VUndefined = Ret style ∧
    field style "fillColor" = Some fill ∧ to_boolean fill = true.
Proof.
  intros feature props.
  assert (Hf : has_properties feature props) by (eexists; split; reflexivity).
  split; [exact Hf|].
  exact (proj1 (defaultStyle_fillColor_truthy feature VUndefined props Hf)).
Defined.
